(** * A model of the chat gateway server (server/index.js)

    The Express server keeps two pieces of process-wide state: the map
    [userSessions] from user ids to conversation arrays and the singleton
    [promptCounter].  The arrays are JavaScript objects shared by
    reference: the chat handler keeps a reference to the array across the
    [await] on the inference call and mutates it afterwards.  The model
    therefore keeps a heap of arrays ([arrays]) and lets [userSessions] map
    a user id to a reference into that heap.

    Dates are represented by their time value in milliseconds (what
    [new Date()] holds and what [now - this.weekStart] computes). *)

From Stdlib Require Import ZArith Lia.
From stdpp Require Import base gmap strings list pretty.

Set Warnings "-register-all".

Module Server.

(** ** Data *)

Record message := mkMessage { role : string; content : string }.

(** JSON bodies of the responses. *)
Inductive json :=
  | JStr (s : string)
  | JNum (z : Z)
  | JArr (l : list json)
  | JObj (fields : list (string * json)).

Record response := mkResponse { status : Z; body : json }.

Definition message_json (m : message) : json :=
  JObj [("role", JStr (role m)); ("content", JStr (content m))].

(** [const promptCounter = { count: 0, weekStart: new Date(), resetWeekly() {...} }] *)
Record promptCounter := mkCounter { count : Z; weekStart : Z }.

(** [7 * 24 * 60 * 60 * 1000] *)
Definition WEEK_MS : Z := 7 * 24 * 60 * 60 * 1000.

(** [resetWeekly()]: [weeksSince = Math.floor((now - this.weekStart) / WEEK)];
    when [weeksSince >= 1] the count is set to 0 and the window restarts. *)
Definition resetWeekly (now : Z) (pc : promptCounter) : promptCounter :=
  let weeksSince := Z.div (now - weekStart pc) WEEK_MS in
  if Z.leb 1 weeksSince then mkCounter 0 now else pc.

(** The process state. *)
Record server := mkServer {
  userSessions : gmap string nat;      (** userId -> reference of its array *)
  arrays : gmap nat (list message);    (** the conversation arrays *)
  nextRef : nat;                       (** next fresh array reference *)
  promptCounter_ : promptCounter
}.

Definition setCounter (s : server) (pc : promptCounter) : server :=
  mkServer (userSessions s) (arrays s) (nextRef s) pc.

(** Contents of the array behind a reference. *)
Definition deref (s : server) (r : nat) : list message :=
  default [] (arrays s !! r).

(** Configuration read from the environment. *)
Record config := mkConfig { OPENAI_API_KEY : string; MAX_PROMPTS_PER_WEEK : Z }.

(** [parseInt(process.env.MAX_PROMPTS_PER_WEEK) || 4000]: a missing or
    unparsable value ([NaN]) and [0] are falsy. *)
Definition max_prompts_of_env (v : option Z) : Z :=
  match v with
  | Some z => if Z.eqb z 0 then 4000 else z
  | None => 4000
  end.

(** Initial state at startup time [t0]. *)
Definition init (t0 : Z) : server := mkServer ∅ ∅ 0 (mkCounter 0 t0).

(** ** Routes *)

(** [POST /api/user/new]: [userSessions.set(userId, [])] with a fresh array. *)
Definition newUser (userId : string) (s : server) : server * response :=
  let r := nextRef s in
  (mkServer (<[userId := r]> (userSessions s)) (<[r := []]> (arrays s))
     (S r) (promptCounter_ s),
   mkResponse 200 (JObj [("userId", JStr userId);
                         ("message", JStr "Nouvelle session créée avec succès")])).

Definition sessionNotFound : response :=
  mkResponse 404 (JObj [("error", JStr "Session utilisateur non trouvée")]).

(** [GET /api/user/:userId/history] *)
Definition getHistory (userId : string) (s : server) : response :=
  match userSessions s !! userId with
  | None => sessionNotFound
  | Some r => mkResponse 200 (JObj [("history", JArr (map message_json (deref s r)))])
  end.

(** [GET /api/stats]: calls [resetWeekly()] first. *)
Definition stats (cfg : config) (now : Z) (s : server) : server * response :=
  let pc := resetWeekly now (promptCounter_ s) in
  let MAX := MAX_PROMPTS_PER_WEEK cfg in
  (setCounter s pc,
   mkResponse 200 (JObj [("promptsUsed", JNum (count pc));
                         ("maxPrompts", JNum MAX);
                         ("remaining", JNum (Z.max 0 (MAX - count pc)));
                         ("weekStart", JNum (weekStart pc))])).

(** [GET /api/health]: reads [promptCounter.count] as it is. *)
Definition health (cfg : config) (now : Z) (s : server) : server * response :=
  (s, mkResponse 200 (JObj [("status", JStr "OK");
                            ("timestamp", JNum now);
                            ("promptsUsed", JNum (count (promptCounter_ s)));
                            ("maxPrompts", JNum (MAX_PROMPTS_PER_WEEK cfg))])).

(** ** [POST /api/chat]

    The handler runs synchronously up to the [await axios.post(...)]
    ([chatStart]) and resumes when the inference call settles
    ([chatFinish]).  Between the two halves other requests may run. *)

(** [req.body]: a field is [None] when absent. *)
Record chatRequest := mkChatRequest { req_userId : option string; req_message : option string }.

(** JavaScript truthiness of a string field: [undefined] and [""] are falsy. *)
Definition truthy (o : option string) : option string :=
  match o with
  | Some v => if String.eqb v "" then None else Some v
  | None => None
  end.

Definition SYSTEM_PROMPT : string :=
  "Tu es un assistant IA utile et bienveillant. Réponds de manière concise et professionnelle en français.".

(** What the handler holds across the [await]: its locals [userId],
    [message], the reference [conversation] and the [messages] sent. *)
Record pending := mkPending {
  p_userId : string;
  p_message : string;
  p_conversation : nat;
  p_messages : list message
}.

Definition weeklyLimitExceeded (MAX : Z) : response :=
  mkResponse 429 (JObj [("error", JStr ("Limite hebdomadaire de " +:+ pretty MAX +:+
                                 " prompts atteinte. Réessayez la semaine prochaine."));
                        ("code", JStr "WEEKLY_LIMIT_EXCEEDED")]).

Definition badRequest : response :=
  mkResponse 400 (JObj [("error", JStr "userId et message sont requis")]).

(** Lines 94-133: validation, session lookup, [resetWeekly()], the
    quota check and the assembly of [messages].  [inl] is an early
    response; [inr] is a request suspended on the inference call. *)
Definition chatStart (cfg : config) (now : Z) (req : chatRequest) (s : server)
  : server * (response + pending) :=
  match truthy (req_userId req), truthy (req_message req) with
  | Some userId, Some msg =>
      match userSessions s !! userId with
      | None => (s, inl sessionNotFound)
      | Some conversation =>
          let s1 := setCounter s (resetWeekly now (promptCounter_ s)) in
          if Z.leb (MAX_PROMPTS_PER_WEEK cfg) (count (promptCounter_ s1))
          then (s1, inl (weeklyLimitExceeded (MAX_PROMPTS_PER_WEEK cfg)))
          else
            let messages :=
              mkMessage "system" SYSTEM_PROMPT
                :: deref s1 conversation ++ [mkMessage "user" msg] in
            (s1, inr (mkPending userId msg conversation messages))
      end
  | _, _ => (s, inl badRequest)
  end.

(** How the inference call settles: a reply whose
    [data.choices[0].message.content] is [content] (an empty content is
    read without error: [UpOk] of the empty string); a reply lacking
    [data.choices[0].message] (reading [.content] throws); an HTTP error with its status and
    payload ([error.response]); a failure without a response. *)
Inductive upstream :=
  | UpOk (content : string)
  | UpMalformed
  | UpHttpError (httpStatus : Z) (data : string)
  | UpNoResponse (msg : string).

(** Lines 157-159: [if (conversation.length > 20) conversation.splice(0, conversation.length - 20)] *)
Definition trimHistory (conversation : list message) : list message :=
  if Nat.ltb 20 (length conversation)
  then drop (length conversation - 20) conversation
  else conversation.

(** The [catch] block, lines 171-187. *)
Definition chatError (o : upstream) : response :=
  match o with
  | UpHttpError 401 _ => mkResponse 500 (JObj [("error", JStr "Clé API OpenAI invalide")])
  | UpHttpError 429 _ =>
      mkResponse 429 (JObj [("error", JStr "Limite de l'API OpenAI atteinte, réessayez plus tard")])
  | _ => mkResponse 500 (JObj [("error", JStr "Erreur interne du serveur")])
  end.

(** Lines 148-169: push the pair into the shared array, trim it,
    [userSessions.set(userId, conversation)], [promptCounter.count++]. *)
Definition chatFinish (cfg : config) (p : pending) (o : upstream) (s : server)
  : server * response :=
  match o with
  | UpOk aiResponse =>
      let r := p_conversation p in
      let conversation :=
        trimHistory (deref s r ++ [mkMessage "user" (p_message p);
                                   mkMessage "assistant" aiResponse]) in
      let pc := promptCounter_ s in
      let pc' := mkCounter (count pc + 1) (weekStart pc) in
      (mkServer (<[p_userId p := r]> (userSessions s)) (<[r := conversation]> (arrays s))
         (nextRef s) pc',
       mkResponse 200 (JObj [("response", JStr aiResponse);
                             ("promptsRemaining",
                              JNum (Z.max 0 (MAX_PROMPTS_PER_WEEK cfg - count pc')))]))
  | _ => (s, chatError o)
  end.

(** The external inference service: given the API key and the messages,
    how the call settles. *)
Definition inference := string -> list message -> upstream.

(** One request run without interleaving. *)
Definition chat (cfg : config) (now : Z) (openai : inference) (req : chatRequest) (s : server)
  : server * response :=
  match chatStart cfg now req s with
  | (s1, inl resp) => (s1, resp)
  | (s1, inr p) => chatFinish cfg p (openai (OPENAI_API_KEY cfg) (p_messages p)) s1
  end.

(** ** Interleaved requests

    The process handles events one at a time; a chat request is split in
    its two halves, and any number of requests can be suspended on their
    inference call.  [w_peak] is a ghost counter: the largest number of
    requests suspended at once so far. *)

Record world := mkWorld { w_server : server; w_inflight : list pending; w_peak : nat }.

Inductive event :=
  | EvNewUser (userId : string)
  | EvHistory (userId : string)
  | EvStats (now : Z)
  | EvHealth (now : Z)
  | EvChatStart (now : Z) (req : chatRequest)
  | EvChatResume (i : nat) (o : upstream).

Definition remove_at {A} (i : nat) (l : list A) : list A := take i l ++ drop (S i) l.

Definition step (cfg : config) (w : world) (e : event) : world * option response :=
  let s := w_server w in
  match e with
  | EvNewUser u => let '(s', r) := newUser u s in (mkWorld s' (w_inflight w) (w_peak w), Some r)
  | EvHistory u => (w, Some (getHistory u s))
  | EvStats now => let '(s', r) := stats cfg now s in (mkWorld s' (w_inflight w) (w_peak w), Some r)
  | EvHealth now => let '(s', r) := health cfg now s in (mkWorld s' (w_inflight w) (w_peak w), Some r)
  | EvChatStart now req =>
      match chatStart cfg now req s with
      | (s', inl r) => (mkWorld s' (w_inflight w) (w_peak w), Some r)
      | (s', inr p) =>
          let fl := w_inflight w ++ [p] in
          (mkWorld s' fl (Nat.max (w_peak w) (length fl)), None)
      end
  | EvChatResume i o =>
      match w_inflight w !! i with
      | None => (w, None)
      | Some p =>
          let '(s', r) := chatFinish cfg p o s in
          (mkWorld s' (remove_at i (w_inflight w)) (w_peak w), Some r)
      end
  end.

Fixpoint run (cfg : config) (w : world) (es : list event) : world :=
  match es with
  | [] => w
  | e :: es' => run cfg (fst (step cfg w e)) es'
  end.

Definition start (t0 : Z) : world := mkWorld (init t0) [] 0.

(** ** Concrete inputs *)

Definition demo_cfg : config := mkConfig "sk-demo" 4000.

(** The state after one [POST /api/user/new] at startup time 0. *)
Definition demo_server : server := fst (newUser "u1" (init 0)).

Definition demo_req : chatRequest := mkChatRequest (Some "u1") (Some "Bonjour").

(** The request [demo_req] suspended on its inference call. *)
Definition demo_s1 : server := setCounter demo_server (resetWeekly 0 (promptCounter_ demo_server)).

Definition demo_pending : pending :=
  mkPending "u1" "Bonjour" 0
    [mkMessage "system" SYSTEM_PROMPT; mkMessage "user" "Bonjour"].

(** ** Predicates on histories and on the interleaved runs *)

(** A history made of user/assistant pairs. *)
Fixpoint pairs (l : list message) : Prop :=
  match l with
  | [] => True
  | u :: a :: t => role u = "user" /\ role a = "assistant" /\ pairs t
  | [_] => False
  end.

Definition hist_ok (h : list message) : Prop := (length h <= 20)%nat /\ pairs h.

(** Every session points to an existing array; every array is a bounded
    sequence of pairs. *)
Definition histories_ok (s : server) : Prop :=
  (forall u r, userSessions s !! u = Some r -> is_Some (arrays s !! r)) /\
  (forall r h, arrays s !! r = Some h -> hist_ok h).

(** The counter plus the requests awaiting their inference call stay
    below [max(0, MAX - 1)] plus the peak number of such requests. *)
Definition quota_inv (cfg : config) (w : world) : Prop :=
  (length (w_inflight w) <= w_peak w)%nat /\
  (count (promptCounter_ (w_server w)) + Z.of_nat (length (w_inflight w))
     <= Z.max 0 (MAX_PROMPTS_PER_WEEK cfg - 1) + Z.of_nat (w_peak w))%Z.

(** Sessions are kept apart: two ids never share an array, and a request
    awaiting its inference call holds an array that no other id owns. *)
Definition sessions_iso (w : world) : Prop :=
  let s := w_server w in
  (forall u v r, userSessions s !! u = Some r -> userSessions s !! v = Some r -> u = v) /\
  (forall u r, userSessions s !! u = Some r -> (r < nextRef s)%nat) /\
  (forall p, In p (w_inflight w) -> (p_conversation p < nextRef s)%nat) /\
  (forall p v, In p (w_inflight w) -> v <> p_userId p ->
     userSessions s !! v <> Some (p_conversation p)) /\
  (forall p q, In p (w_inflight w) -> In q (w_inflight w) ->
     p_conversation p = p_conversation q -> p_userId p = p_userId q).

(** ** The browser client ([sendMessage] in src/App.tsx)

    The client state keeps the fields [sendMessage] reads and writes:
    [messages] (role and content; the display-only [timestamp] is left
    out), [inputMessage], [isLoading], [userId] and [error].  The usage
    statistics shown under the input are not modelled.  [response.json()]
    is the [body] of the server's response. *)

(** [data.k] on a parsed JSON value: the last binding of [k] in an object
    (the one [JSON.parse] keeps); [None] is [undefined]. *)
Fixpoint jfield_in (k : string) (fs : list (string * json)) : option json :=
  match fs with
  | [] => None
  | (k', v) :: fs' =>
      match jfield_in k fs' with
      | Some v' => Some v'
      | None => if String.eqb k k' then Some v else None
      end
  end.

Definition jfield (k : string) (j : json) : option json :=
  match j with
  | JObj fs => jfield_in k fs
  | _ => None
  end.

(** JavaScript truthiness of a JSON value or [undefined]. *)
Definition jtruthy (o : option json) : bool :=
  match o with
  | Some (JStr v) => negb (String.eqb v "")
  | Some (JNum n) => negb (Z.eqb n 0)
  | Some (JArr _) | Some (JObj _) => true
  | None => false
  end.

(** [String(x)] on a JSON value (the numbers here are integers). *)
Fixpoint js_string (j : json) : string :=
  match j with
  | JStr v => v
  | JNum n => pretty n
  | JArr l => String.concat "," (map js_string l)
  | JObj _ => "[object Object]"
  end.

Record client := mkClient {
  c_messages : list (string * option json);
  c_inputMessage : string;
  c_isLoading : bool;
  c_userId : option string;      (** [null] is [None] *)
  c_error : option json          (** [null] and [undefined] are [None] *)
}.

(** [response.ok]: a status in 200-299. *)
Definition response_ok (r : response) : bool :=
  Z.leb 200 (status r) && Z.leb (status r) 299.

Section Client.

(** [String.prototype.trim]. *)
Variable trim : string -> string.

(** Lines 104-128: the guard, the optimistic user message, the state
    changes before the [fetch] and the request body sent. *)
Definition sendStart (c : client) : client * option chatRequest :=
  let t := trim (c_inputMessage c) in
  match truthy (Some t), truthy (c_userId c), c_isLoading c with
  | Some _, Some uid, false =>
      (mkClient (c_messages c ++ [("user", Some (JStr t))]) "" true (c_userId c) None,
       Some (mkChatRequest (Some uid) (Some t)))
  | _, _, _ => (c, None)
  end.

(** Lines 130-161: handling of the server's answer; [finally] clears
    [isLoading] on every path. *)
Definition sendFinish (r : response) (c : client) : client :=
  let data := body r in
  let settle msgs err := mkClient msgs (c_inputMessage c) false (c_userId c) err in
  if negb (response_ok r) then
    match jfield "code" data with
    | Some (JStr code) =>
        if String.eqb code "WEEKLY_LIMIT_EXCEEDED"
        then settle (c_messages c) (jfield "error" data)
        else settle (c_messages c)
               (Some (JStr (if jtruthy (jfield "error" data)
                            then js_string (default (JStr "") (jfield "error" data))
                            else "Erreur lors de l'envoi du message")))
    | _ =>
        settle (c_messages c)
          (Some (JStr (if jtruthy (jfield "error" data)
                       then js_string (default (JStr "") (jfield "error" data))
                       else "Erreur lors de l'envoi du message")))
    end
  else settle (c_messages c ++ [("assistant", jfield "response" data)]) (c_error c).

(** One message sent by the client and handled by the server without
    other requests in between. *)
Definition sendRoundTrip (cfg : config) (now : Z) (openai : inference) (c : client) (s : server)
  : client * server :=
  match sendStart c with
  | (c1, None) => (c1, s)
  | (c1, Some req) =>
      let '(s', r) := chat cfg now openai req s in (sendFinish r c1, s')
  end.

End Client.

(** ** Properties *)

Section Facts.

(** The reset test on the floored number of weeks is the test
    [elapsed >= WEEK_MS]. *)
Lemma weeksSince_test (d : Z) : Z.leb 1 (Z.div d WEEK_MS) = Z.leb WEEK_MS d.
Proof.
  assert (E : WEEK_MS = 604800000%Z) by reflexivity. rewrite E.
  pose proof (Z.div_mod d 604800000 ltac:(lia)) as Hdm.
  pose proof (Z.mod_pos_bound d 604800000 ltac:(lia)) as Hb.
  destruct (Z.leb_spec 1 (d / 604800000)), (Z.leb_spec 604800000 d); auto; lia.
Qed.

Lemma chatStart_cases (cfg : config) (now : Z) (req : chatRequest) (s s' : server)
    (x : response + pending) :
  chatStart cfg now req s = (s', x) ->
  (s' = s /\ exists r, x = inl r) \/
  (s' = setCounter s (resetWeekly now (promptCounter_ s)) /\
   ((exists r, x = inl r) \/
    exists userId msg conversation,
      truthy (req_userId req) = Some userId /\
      truthy (req_message req) = Some msg /\
      userSessions s !! userId = Some conversation /\
      (count (resetWeekly now (promptCounter_ s)) < MAX_PROMPTS_PER_WEEK cfg)%Z /\
      x = inr (mkPending userId msg conversation
                 (mkMessage "system" SYSTEM_PROMPT
                    :: deref s conversation ++ [mkMessage "user" msg])))).
Proof.
  unfold chatStart.
  destruct (truthy (req_userId req)) as [u|] eqn:Hu;
    destruct (truthy (req_message req)) as [m|] eqn:Hm;
    try (intros H; injection H as <- <-; left; eauto; fail).
  destruct (userSessions s !! u) as [c|] eqn:Hc;
    [| intros H; injection H as <- <-; left; eauto].
  cbv zeta. destruct (Z.leb _ _) eqn:Hle;
    intros Heq; injection Heq as <- <-; right; split; auto.
  - left. eauto.
  - right. exists u, m, c. repeat split; auto.
    apply Z.leb_gt in Hle. exact Hle.
Qed.

Lemma chatStart_config (cfg1 cfg2 : config) (now : Z) (req : chatRequest) (s : server) :
  MAX_PROMPTS_PER_WEEK cfg1 = MAX_PROMPTS_PER_WEEK cfg2 ->
  chatStart cfg1 now req s = chatStart cfg2 now req s.
Proof. intros H. unfold chatStart. rewrite H. reflexivity. Qed.

End Facts.

(** C7: the reset fires exactly when at least 7 days have elapsed since
    [weekStart]; it then zeroes the count and restarts the window at
    [now] (so [/api/stats] reports [remaining = max] for a non-negative
    max); otherwise it changes nothing; applying it twice at the same
    instant is applying it once. *)
Theorem resetWeekly_window (now : Z) (pc : promptCounter) :
  ((WEEK_MS <= now - weekStart pc)%Z -> resetWeekly now pc = mkCounter 0 now) /\
  ((now - weekStart pc < WEEK_MS)%Z -> resetWeekly now pc = pc) /\
  resetWeekly now (resetWeekly now pc) = resetWeekly now pc /\
  (forall (cfg : config) (s : server), promptCounter_ s = pc ->
     (WEEK_MS <= now - weekStart pc)%Z -> (0 <= MAX_PROMPTS_PER_WEEK cfg)%Z ->
     snd (stats cfg now s) =
       mkResponse 200 (JObj [("promptsUsed", JNum 0);
                             ("maxPrompts", JNum (MAX_PROMPTS_PER_WEEK cfg));
                             ("remaining", JNum (MAX_PROMPTS_PER_WEEK cfg));
                             ("weekStart", JNum now)])).
Proof.
  assert (Hfire : (WEEK_MS <= now - weekStart pc)%Z -> resetWeekly now pc = mkCounter 0 now).
  { intros H. unfold resetWeekly. rewrite weeksSince_test.
    destruct (Z.leb_spec WEEK_MS (now - weekStart pc)); [reflexivity | lia]. }
  assert (Hkeep : (now - weekStart pc < WEEK_MS)%Z -> resetWeekly now pc = pc).
  { intros H. unfold resetWeekly. rewrite weeksSince_test.
    destruct (Z.leb_spec WEEK_MS (now - weekStart pc)); [lia | reflexivity]. }
  split; [exact Hfire|]. split; [exact Hkeep|]. split.
  - destruct (Z.le_gt_cases WEEK_MS (now - weekStart pc)) as [H|H].
    + rewrite (Hfire H). unfold resetWeekly; simpl.
      rewrite Z.sub_diag. reflexivity.
    + rewrite (Hkeep H). exact (Hkeep H).
  - intros cfg s Hs H Hmax. unfold stats. rewrite Hs, (Hfire H). simpl.
    rewrite Z.sub_0_r, Z.max_r by exact Hmax. reflexivity.
Qed.

(** C1 (counterexample): a request that passes validation and the quota
    check and whose inference call fails leaves the counter where it was,
    not one higher. *)
Lemma failed_call_not_charged :
  count (promptCounter_ (fst (chat demo_cfg 0 (fun _ _ => UpNoResponse "timeout")
                                demo_req demo_server)))
  <> (count (promptCounter_ demo_server) + 1)%Z.
Proof. vm_compute. discriminate. Qed.

(** C1 (amended): the counter is incremented only after a successful
    inference reply; when the call fails the counter keeps its value
    after the lazy reset and the state is the one left by the check. *)
Theorem chat_charges_on_success (cfg : config) (now : Z) (openai : inference)
    (req : chatRequest) (s s1 : server) (p : pending) :
  chatStart cfg now req s = (s1, inr p) ->
  let o := openai (OPENAI_API_KEY cfg) (p_messages p) in
  let base := count (resetWeekly now (promptCounter_ s)) in
  (forall c, o = UpOk c ->
     count (promptCounter_ (fst (chat cfg now openai req s))) = (base + 1)%Z) /\
  ((forall c, o <> UpOk c) ->
     fst (chat cfg now openai req s) = s1 /\ count (promptCounter_ s1) = base).
Proof.
  intros H o base.
  destruct (chatStart_cases _ _ _ _ _ _ H) as [[_ [r Hr]] | [Hs1 [[r Hr] | Hp]]];
    try discriminate.
  unfold chat. rewrite H. fold o. split.
  - intros c Hc. rewrite Hc. simpl. rewrite Hs1. reflexivity.
  - intros Hno. destruct o as [c| | |] eqn:Ho; [exfalso; exact (Hno c eq_refl)| | |];
      simpl; rewrite Hs1; split; reflexivity.
Qed.

Lemma chat_charges_on_success_witness :
  chatStart demo_cfg 0 demo_req demo_server = (demo_s1, inr demo_pending) /\
  (let o := UpNoResponse "timeout" in
   let base := count (resetWeekly 0 (promptCounter_ demo_server)) in
   (forall c, o = UpOk c ->
      count (promptCounter_ (fst (chat demo_cfg 0 (fun _ _ => o) demo_req demo_server)))
      = (base + 1)%Z) /\
   ((forall c, o <> UpOk c) ->
      fst (chat demo_cfg 0 (fun _ _ => o) demo_req demo_server) = demo_s1 /\
      count (promptCounter_ demo_s1) = base)).
Proof.
  split; [reflexivity |].
  exact (chat_charges_on_success demo_cfg 0 (fun _ _ => UpNoResponse "timeout")
           demo_req demo_server demo_s1 demo_pending eq_refl).
Defined.

(** C3 (counterexample): an upstream 429 is answered with 429, a 4xx. *)
Lemma upstream_429_is_4xx :
  status (snd (chat demo_cfg 0 (fun _ _ => UpHttpError 429 "rate limited")
                 demo_req demo_server)) = 429%Z /\
  ~ (500 <= status (snd (chat demo_cfg 0 (fun _ _ => UpHttpError 429 "rate limited")
                           demo_req demo_server)) < 600)%Z.
Proof.
  assert (E : status (snd (chat demo_cfg 0 (fun _ _ => UpHttpError 429 "rate limited")
                             demo_req demo_server)) = 429%Z) by (vm_compute; reflexivity).
  rewrite E. split; [reflexivity | lia].
Qed.

(** C3 (amended): when the inference service answers HTTP 429 the
    gateway answers 429 with a fixed message and leaves the state
    produced by the quota check. *)
Theorem upstream_rate_limit_passthrough (cfg : config) (now : Z) (openai : inference)
    (req : chatRequest) (s s1 : server) (p : pending) (d : string) :
  chatStart cfg now req s = (s1, inr p) ->
  openai (OPENAI_API_KEY cfg) (p_messages p) = UpHttpError 429 d ->
  chat cfg now openai req s =
    (s1, mkResponse 429 (JObj [("error", JStr "Limite de l'API OpenAI atteinte, réessayez plus tard")])).
Proof. intros H Ho. unfold chat. rewrite H, Ho. reflexivity. Qed.

Lemma upstream_rate_limit_passthrough_witness :
  chat demo_cfg 0 (fun _ _ => UpHttpError 429 "slow down") demo_req demo_server =
    (demo_s1, mkResponse 429 (JObj [("error", JStr "Limite de l'API OpenAI atteinte, réessayez plus tard")])).
Proof.
  apply (upstream_rate_limit_passthrough demo_cfg 0 (fun _ _ => UpHttpError 429 "slow down")
           demo_req demo_server demo_s1 demo_pending "slow down"); reflexivity.
Defined.

(** C4 (code_bug evidence): [GET /api/health] reads the count without the
    reset check; eight days after the window start it still reports the
    old count, while [GET /api/stats] on the same state reports 0. *)
Lemma health_skips_weekly_reset :
  snd (health demo_cfg (8 * 24 * 60 * 60 * 1000) (setCounter (init 0) (mkCounter 5 0))) =
    mkResponse 200 (JObj [("status", JStr "OK"); ("timestamp", JNum 691200000);
                          ("promptsUsed", JNum 5); ("maxPrompts", JNum 4000)]) /\
  snd (stats demo_cfg (8 * 24 * 60 * 60 * 1000) (setCounter (init 0) (mkCounter 5 0))) =
    mkResponse 200 (JObj [("promptsUsed", JNum 0); ("maxPrompts", JNum 4000);
                          ("remaining", JNum 4000); ("weekStart", JNum 691200000)]).
Proof. split; vm_compute; reflexivity. Qed.

(** C6: a chat request on an existing session whose count, after the
    lazy reset, has reached the maximum is answered 429 with code
    [WEEKLY_LIMIT_EXCEEDED] before any inference call; sessions and
    histories are untouched and the counter keeps its post-reset value. *)
Theorem quota_exceeded_no_call (cfg : config) (now : Z) (openai : inference)
    (req : chatRequest) (s : server) (userId msg : string) (conversation : nat) :
  truthy (req_userId req) = Some userId ->
  truthy (req_message req) = Some msg ->
  userSessions s !! userId = Some conversation ->
  (MAX_PROMPTS_PER_WEEK cfg <= count (resetWeekly now (promptCounter_ s)))%Z ->
  let s1 := setCounter s (resetWeekly now (promptCounter_ s)) in
  chatStart cfg now req s = (s1, inl (weeklyLimitExceeded (MAX_PROMPTS_PER_WEEK cfg))) /\
  chat cfg now openai req s = (s1, weeklyLimitExceeded (MAX_PROMPTS_PER_WEEK cfg)) /\
  userSessions s1 = userSessions s /\ arrays s1 = arrays s /\
  count (promptCounter_ s1) = count (resetWeekly now (promptCounter_ s)) /\
  status (weeklyLimitExceeded (MAX_PROMPTS_PER_WEEK cfg)) = 429%Z /\
  exists fs, body (weeklyLimitExceeded (MAX_PROMPTS_PER_WEEK cfg)) = JObj fs /\
             In ("code", JStr "WEEKLY_LIMIT_EXCEEDED") fs.
Proof.
  intros Hu Hm Hc Hmax s1.
  assert (Hstart : chatStart cfg now req s =
                   (s1, inl (weeklyLimitExceeded (MAX_PROMPTS_PER_WEEK cfg)))).
  { unfold chatStart. rewrite Hu, Hm, Hc. cbv zeta.
    apply Z.leb_le in Hmax. simpl. rewrite Hmax. reflexivity. }
  split; [exact Hstart|]. split.
  { unfold chat. rewrite Hstart. reflexivity. }
  repeat split; try reflexivity.
  eexists. split; [reflexivity|]. simpl. auto.
Qed.

Lemma quota_exceeded_no_call_witness :
  let cfg := mkConfig "sk-demo" 1 in
  let s := setCounter demo_server (mkCounter 1 0) in
  let s1 := setCounter s (resetWeekly 10 (promptCounter_ s)) in
  chatStart cfg 10 demo_req s = (s1, inl (weeklyLimitExceeded 1)) /\
  chat cfg 10 (fun _ _ => UpOk "jamais") demo_req s = (s1, weeklyLimitExceeded 1) /\
  userSessions s1 = userSessions s /\ arrays s1 = arrays s /\
  count (promptCounter_ s1) = count (resetWeekly 10 (promptCounter_ s)) /\
  status (weeklyLimitExceeded 1) = 429%Z /\
  exists fs, body (weeklyLimitExceeded 1) = JObj fs /\
             In ("code", JStr "WEEKLY_LIMIT_EXCEEDED") fs.
Proof.
  apply (quota_exceeded_no_call (mkConfig "sk-demo" 1) 10 (fun _ _ => UpOk "jamais")
           demo_req (setCounter demo_server (mkCounter 1 0)) "u1" "Bonjour" 0);
    [reflexivity | reflexivity | reflexivity | vm_compute; discriminate].
Defined.

(** C8: a request that reaches the inference call sends exactly the
    system instruction, then the session's stored history in order, then
    the new user message; [chat] passes that sequence unchanged. *)
Theorem chat_context_assembly (cfg : config) (now : Z) (openai : inference)
    (req : chatRequest) (s s1 : server) (p : pending) :
  chatStart cfg now req s = (s1, inr p) ->
  exists userId msg conversation,
    truthy (req_userId req) = Some userId /\
    req_message req = Some msg /\
    userSessions s !! userId = Some conversation /\
    p_messages p = mkMessage "system" SYSTEM_PROMPT
                     :: deref s conversation ++ [mkMessage "user" msg] /\
    chat cfg now openai req s = chatFinish cfg p (openai (OPENAI_API_KEY cfg) (p_messages p)) s1.
Proof.
  intros H.
  destruct (chatStart_cases _ _ _ _ _ _ H)
    as [[_ [r Hr]] | [Hs1 [[r Hr] | (u & m & c & Hu & Hm & Hc & _ & Hp)]]];
    try discriminate.
  injection Hp as Hp. subst p.
  exists u, m, c. repeat split; auto.
  - unfold truthy in Hm. destruct (req_message req) as [v|]; [|discriminate].
    destruct (String.eqb_spec v ""); [discriminate|]. congruence.
  - unfold chat. rewrite H. reflexivity.
Qed.

Lemma chat_context_assembly_witness :
  chatStart demo_cfg 0 demo_req demo_server = (demo_s1, inr demo_pending) /\
  exists userId msg conversation,
    truthy (req_userId demo_req) = Some userId /\
    req_message demo_req = Some msg /\
    userSessions demo_server !! userId = Some conversation /\
    p_messages demo_pending = mkMessage "system" SYSTEM_PROMPT
                     :: deref demo_server conversation ++ [mkMessage "user" msg] /\
    chat demo_cfg 0 (fun _ _ => UpOk "Salut") demo_req demo_server =
      chatFinish demo_cfg demo_pending (UpOk "Salut") demo_s1.
Proof.
  split; [reflexivity|].
  exact (chat_context_assembly demo_cfg 0 (fun _ _ => UpOk "Salut") demo_req demo_server
           demo_s1 demo_pending eq_refl).
Defined.

(** C9: when the inference service rejects the credentials (HTTP 401),
    the client sees the fixed 500 response; two runs differing in the
    API key or in the upstream error payload give the same response. *)
Theorem auth_failure_fixed_response (cfg1 cfg2 : config) (now : Z)
    (openai1 openai2 : inference) (req : chatRequest) (s s1 : server) (p : pending)
    (d1 d2 : string) :
  MAX_PROMPTS_PER_WEEK cfg1 = MAX_PROMPTS_PER_WEEK cfg2 ->
  chatStart cfg1 now req s = (s1, inr p) ->
  openai1 (OPENAI_API_KEY cfg1) (p_messages p) = UpHttpError 401 d1 ->
  openai2 (OPENAI_API_KEY cfg2) (p_messages p) = UpHttpError 401 d2 ->
  snd (chat cfg1 now openai1 req s) =
    mkResponse 500 (JObj [("error", JStr "Clé API OpenAI invalide")]) /\
  snd (chat cfg1 now openai1 req s) = snd (chat cfg2 now openai2 req s).
Proof.
  intros Hmax H1 Ho1 Ho2.
  assert (H2 : chatStart cfg2 now req s = (s1, inr p))
    by (rewrite <- (chatStart_config cfg1 cfg2 now req s Hmax); exact H1).
  unfold chat. rewrite H1, H2, Ho1, Ho2. split; reflexivity.
Qed.

Lemma auth_failure_fixed_response_witness :
  snd (chat demo_cfg 0 (fun _ _ => UpHttpError 401 "invalid key sk-demo") demo_req demo_server) =
    mkResponse 500 (JObj [("error", JStr "Clé API OpenAI invalide")]) /\
  snd (chat demo_cfg 0 (fun _ _ => UpHttpError 401 "invalid key sk-demo") demo_req demo_server) =
  snd (chat (mkConfig "sk-other" 4000) 0 (fun _ _ => UpHttpError 401 "{}") demo_req demo_server).
Proof.
  apply (auth_failure_fixed_response demo_cfg (mkConfig "sk-other" 4000) 0
           (fun _ _ => UpHttpError 401 "invalid key sk-demo") (fun _ _ => UpHttpError 401 "{}")
           demo_req demo_server demo_s1 demo_pending "invalid key sk-demo" "{}");
    reflexivity.
Defined.

Section Runs.

Variable cfg : config.

Lemma run_invariant (I : world -> Prop) :
  (forall w e, I w -> I (fst (step cfg w e))) ->
  forall es w, I w -> I (run cfg w es).
Proof. intros Hstep es. induction es as [|e es IH]; intros w Hw; simpl; auto. Qed.

Lemma pairs_app (h : list message) (x y : message) :
  pairs h -> role x = "user" -> role y = "assistant" -> pairs (h ++ [x; y]).
Proof.
  revert h. fix IH 1. intros [|a [|b t]] Hh Hx Hy; simpl in *.
  - auto.
  - contradiction.
  - destruct Hh as (Ha & Hb & Ht). split; [exact Ha|]. split; [exact Hb|].
    exact (IH t Ht Hx Hy).
Qed.

Lemma pairs_even (h : list message) : pairs h -> Nat.Even (length h).
Proof.
  revert h. fix IH 1. intros [|a [|b t]] Hh; simpl in *.
  - exists 0%nat. reflexivity.
  - contradiction.
  - destruct Hh as (_ & _ & Ht). destruct (IH t Ht) as [k Hk].
    exists (S k). lia.
Qed.

Lemma pairs_drop (l : list message) (k : nat) : pairs l -> Nat.Even k -> pairs (drop k l).
Proof.
  revert l k. fix IH 1. intros [|a [|b t]] k Hl Hk; simpl in Hl.
  - destruct k; exact I.
  - contradiction.
  - destruct k as [|[|k]].
    + exact Hl.
    + exfalso. destruct Hk as [n Hn]. lia.
    + simpl. apply (IH t k); [tauto|].
      destruct Hk as [n Hn]. exists (n - 1)%nat. lia.
Qed.

Lemma pairs_roles (h : list message) : pairs h ->
  forall i m, h !! i = Some m -> role m = (if Nat.even i then "user" else "assistant").
Proof.
  revert h. fix IH 1. intros [|a [|b t]] Hh i m Hi; simpl in Hh.
  - simpl in Hi. discriminate.
  - contradiction.
  - destruct Hh as (Ha & Hb & Ht). destruct i as [|[|i]]; simpl in Hi.
    + injection Hi as <-. exact Ha.
    + injection Hi as <-. exact Hb.
    + exact (IH t Ht i m Hi).
Qed.

Lemma trim_suffix (l : list message) :
  exists pre, l = pre ++ trimHistory l /\ length (trimHistory l) = Nat.min 20 (length l).
Proof.
  unfold trimHistory. destruct (Nat.ltb_spec 20 (length l)).
  - exists (take (length l - 20) l). split; [symmetry; apply take_drop|].
    rewrite length_drop. lia.
  - exists []. split; [reflexivity|]. lia.
Qed.

Lemma trim_tail (old : list message) (x y : message) :
  exists h0, trimHistory (old ++ [x; y]) = h0 ++ [x; y].
Proof.
  unfold trimHistory. rewrite length_app. simpl.
  destruct (Nat.ltb_spec 20 (length old + 2)).
  - exists (drop (length old + 2 - 20) old). apply drop_app_le. lia.
  - exists old. reflexivity.
Qed.

Lemma trim_ok (h : list message) (m a : string) :
  hist_ok h -> hist_ok (trimHistory (h ++ [mkMessage "user" m; mkMessage "assistant" a])).
Proof.
  intros [Hlen Hp].
  pose proof (pairs_app h (mkMessage "user" m) (mkMessage "assistant" a) Hp eq_refl eq_refl) as Hp'.
  destruct (pairs_even h Hp) as [k Hk].
  unfold trimHistory. rewrite length_app. simpl.
  destruct (Nat.ltb_spec 20 (length h + 2)).
  - split.
    + rewrite length_drop, length_app. simpl. lia.
    + apply pairs_drop; [exact Hp'|]. exists (k + 1 - 10)%nat. lia.
  - split; [rewrite length_app; simpl; lia | exact Hp'].
Qed.

Lemma deref_ok (s : server) (r : nat) : histories_ok s -> hist_ok (deref s r).
Proof.
  intros [_ Ha]. unfold deref. destruct (arrays s !! r) as [h|] eqn:E; simpl.
  - exact (Ha r h E).
  - split; [simpl; lia | exact I].
Qed.

Lemma histories_ok_setCounter (s : server) (pc : promptCounter) :
  histories_ok s -> histories_ok (setCounter s pc).
Proof. auto. Qed.

Lemma histories_ok_step (w : world) (e : event) :
  histories_ok (w_server w) -> histories_ok (w_server (fst (step cfg w e))).
Proof.
  intros Hok. pose proof Hok as [Hs Ha]. destruct e as [u|u|now|now|now req|i o]; simpl; auto.
  - split.
    + intros u' r'. cbn [userSessions arrays]. rewrite lookup_insert. intros Hl.
      rewrite lookup_insert. destruct (decide (nextRef (w_server w) = r')); [eauto|].
      destruct (decide (u = u')); [congruence|]. eauto.
    + intros r h. cbn [arrays]. rewrite lookup_insert.
      destruct (decide (nextRef (w_server w) = r)).
      * intros Hh. injection Hh as <-. split; [simpl; lia | exact I].
      * apply Ha.
  - destruct (chatStart cfg now req (w_server w)) as [s' x] eqn:E.
    destruct (chatStart_cases _ _ _ _ _ _ E) as [[-> _] | [-> _]];
      destruct x; simpl; auto.
  - destruct (w_inflight w !! i) as [p|]; simpl; [|exact Hok].
    destruct o as [c| | |]; simpl; try exact Hok.
    split.
    + intros u' r'. cbn [userSessions arrays]. rewrite lookup_insert. intros Hl.
      rewrite lookup_insert. destruct (decide (p_conversation p = r')); [eauto|].
      destruct (decide (p_userId p = u')); [congruence|]. eauto.
    + intros r h. cbn [arrays]. rewrite lookup_insert.
      destruct (decide (p_conversation p = r)).
      * intros Hh. injection Hh as <-. apply trim_ok, deref_ok, Hok.
      * apply Ha.
Qed.

Lemma histories_ok_run (t0 : Z) (es : list event) :
  histories_ok (w_server (run cfg (start t0) es)).
Proof.
  apply (run_invariant (fun w => histories_ok (w_server w))).
  - intros w e. apply histories_ok_step.
  - split; intros ? ?; simpl; rewrite lookup_empty; discriminate.
Qed.

End Runs.

(** C5: after any interleaving of requests, every session's history has
    at most 20 entries; a successful exchange stores the most recent
    [min 20 n] entries of the old history followed by the new pair, in
    their order, so the pair is at the end. *)
Theorem history_bounded_recent (cfg : config) (t0 : Z) (es : list event) :
  let w := run cfg (start t0) es in
  (forall u r, userSessions (w_server w) !! u = Some r ->
     (length (deref (w_server w) r) <= 20)%nat) /\
  (forall i p reply, w_inflight w !! i = Some p ->
     let l := deref (w_server w) (p_conversation p) ++
                [mkMessage "user" (p_message p); mkMessage "assistant" reply] in
     let s' := w_server (fst (step cfg w (EvChatResume i (UpOk reply)))) in
     userSessions s' !! p_userId p = Some (p_conversation p) /\
     exists pre, l = pre ++ deref s' (p_conversation p) /\
       length (deref s' (p_conversation p)) = Nat.min 20 (length l) /\
       exists h0, deref s' (p_conversation p) =
                  h0 ++ [mkMessage "user" (p_message p); mkMessage "assistant" reply]).
Proof.
  intros w. split.
  - intros u r _. apply (deref_ok (w_server w) r (histories_ok_run cfg t0 es)).
  - intros i p reply Hi l s'.
    assert (Hs' : deref s' (p_conversation p) = trimHistory l).
    { unfold s', deref. simpl. rewrite Hi. simpl. rewrite lookup_insert_eq. reflexivity. }
    split.
    + unfold s'. simpl. rewrite Hi. simpl. apply lookup_insert_eq.
    + rewrite Hs'. destruct (trim_suffix l) as (pre & Hpre & Hlen).
      exists pre. split; [exact Hpre|]. split; [exact Hlen|].
      apply trim_tail.
Qed.

(** C10: after any interleaving of requests, every session's history has
    even length, with role "user" at even and "assistant" at odd
    positions. *)
Theorem history_alternates (cfg : config) (t0 : Z) (es : list event) :
  let s := w_server (run cfg (start t0) es) in
  forall u r, userSessions s !! u = Some r ->
    Nat.Even (length (deref s r)) /\
    forall i m, deref s r !! i = Some m ->
      role m = (if Nat.even i then "user" else "assistant").
Proof.
  intros s u r _.
  destruct (deref_ok s r (histories_ok_run cfg t0 es)) as [_ Hp].
  split; [apply pairs_even, Hp | apply pairs_roles, Hp].
Qed.

Lemma history_alternates_witness :
  let s := w_server (run demo_cfg (start 0)
                       [EvNewUser "u1"; EvChatStart 0 demo_req; EvChatResume 0 (UpOk "Salut")]) in
  userSessions s !! "u1" = Some 0%nat /\
  (Nat.Even (length (deref s 0)) /\
   forall i m, deref s 0 !! i = Some m ->
     role m = (if Nat.even i then "user" else "assistant")).
Proof.
  split; [vm_compute; reflexivity|].
  apply (history_alternates demo_cfg 0
           [EvNewUser "u1"; EvChatStart 0 demo_req; EvChatResume 0 (UpOk "Salut")] "u1" 0).
  vm_compute. reflexivity.
Defined.

(** C2 (counterexample): with a maximum of 1, two requests that both pass
    the check before either inference call returns are both charged; the
    count ends above the maximum. *)
Lemma concurrent_requests_exceed_quota :
  let cfg := mkConfig "sk-demo" 1 in
  let w := run cfg (start 0)
             [EvNewUser "u1"; EvChatStart 0 demo_req; EvChatStart 0 demo_req;
              EvChatResume 0 (UpOk "a"); EvChatResume 0 (UpOk "b")] in
  (MAX_PROMPTS_PER_WEEK cfg < count (promptCounter_ (w_server w)))%Z.
Proof. vm_compute. reflexivity. Qed.

Section Quota.

Variable cfg : config.

Lemma reset_cases (now : Z) (pc : promptCounter) :
  resetWeekly now pc = pc \/ count (resetWeekly now pc) = 0%Z.
Proof. unfold resetWeekly. destruct (Z.leb _ _); auto. Qed.

Lemma length_remove_at {A} (i : nat) (l : list A) :
  (i < length l)%nat -> length (remove_at i l) = (length l - 1)%nat.
Proof. intros H. unfold remove_at. rewrite length_app, length_take, length_drop. lia. Qed.

Lemma quota_inv_reset (w : world) (now : Z) :
  quota_inv cfg w ->
  quota_inv cfg (mkWorld (setCounter (w_server w) (resetWeekly now (promptCounter_ (w_server w))))
                   (w_inflight w) (w_peak w)).
Proof.
  intros [Hp Hc]. split; [exact Hp|]. simpl.
  destruct (reset_cases now (promptCounter_ (w_server w))) as [-> | ->]; [exact Hc|].
  pose proof (Z.le_max_l 0 (MAX_PROMPTS_PER_WEEK cfg - 1)). lia.
Qed.

Lemma quota_inv_step (w : world) (e : event) :
  quota_inv cfg w -> quota_inv cfg (fst (step cfg w e)).
Proof.
  intros Hinv. pose proof Hinv as [Hp Hc].
  destruct e as [u|u|now|now|now req|i o]; simpl; auto.
  - apply (quota_inv_reset w now Hinv).
  - destruct (chatStart cfg now req (w_server w)) as [s' x] eqn:E.
    destruct (chatStart_cases _ _ _ _ _ _ E)
      as [[-> [r ->]] | [-> [[r ->] | (u & m & c & _ & _ & _ & Hlt & ->)]]]; simpl.
    + destruct w; exact Hinv.
    + apply (quota_inv_reset w now Hinv).
    + split; simpl; rewrite ?length_app; simpl; [lia|].
      pose proof (Z.le_max_r 0 (MAX_PROMPTS_PER_WEEK cfg - 1)).
      rewrite Nat2Z.inj_max. lia.
  - destruct (w_inflight w !! i) as [p|] eqn:Hi; simpl; [|exact Hinv].
    apply lookup_lt_Some in Hi.
    destruct o as [c| | |]; unfold quota_inv; simpl;
      rewrite length_remove_at by exact Hi; split; lia.
Qed.

End Quota.

(** C2 (amended): the check (before the inference call) and the increment
    (after a successful reply) are separate steps, so interleaved
    requests can push the count past the maximum; after any interleaving
    the count is at most [max(0, MAX - 1)] plus the largest number of
    requests that were awaiting their inference call at the same time. *)
Theorem quota_overshoot_bound (cfg : config) (t0 : Z) (es : list event) :
  let w := run cfg (start t0) es in
  (count (promptCounter_ (w_server w))
     <= Z.max 0 (MAX_PROMPTS_PER_WEEK cfg - 1) + Z.of_nat (w_peak w))%Z.
Proof.
  intros w.
  assert (H : quota_inv cfg w).
  { apply (run_invariant cfg (quota_inv cfg)); [apply quota_inv_step|].
    split; simpl; [lia|]. pose proof (Z.le_max_l 0 (MAX_PROMPTS_PER_WEEK cfg - 1)). lia. }
  destruct H as [_ H]. lia.
Qed.

(** ** Further properties of the server *)

Section More.

Variable cfg : config.

Lemma run_app (w : world) (es : list event) (e : event) :
  run cfg w (es ++ [e]) = fst (step cfg (run cfg w es) e).
Proof. revert w. induction es as [|e' es IH]; intros w; simpl; auto. Qed.

Lemma in_remove_at {A} (x : A) (i : nat) (l : list A) : In x (remove_at i l) -> In x l.
Proof.
  revert i. induction l as [|a l IH]; intros i; unfold remove_at.
  - destruct i; simpl; auto.
  - destruct i as [|i]; simpl; [auto|].
    intros [->|H]; [left; reflexivity | right; apply (IH i H)].
Qed.

End More.

(** X1: right after [POST /api/user/new] for an id, its history is the
    empty list, whatever the id held before. *)
Theorem newUser_history_empty (userId : string) (s : server) :
  getHistory userId (fst (newUser userId s)) =
    mkResponse 200 (JObj [("history", JArr [])]).
Proof.
  unfold getHistory, newUser, deref. simpl.
  rewrite lookup_insert_eq. simpl. rewrite lookup_insert_eq. reflexivity.
Qed.

(** X2: after any interleaving of requests, an id has a session exactly
    when [POST /api/user/new] created it; chat requests never create one,
    and the history of any other id is answered 404. *)
Theorem sessions_only_from_newUser (cfg : config) (t0 : Z) (es : list event) (u : string) :
  let s := w_server (run cfg (start t0) es) in
  (is_Some (userSessions s !! u) <-> In (EvNewUser u) es) /\
  (getHistory u s = sessionNotFound <-> ~ In (EvNewUser u) es).
Proof.
  assert (Hinv : forall es,
    let w := run cfg (start t0) es in
    (forall u, is_Some (userSessions (w_server w) !! u) <-> In (EvNewUser u) es) /\
    (forall p, In p (w_inflight w) -> is_Some (userSessions (w_server w) !! p_userId p))).
  { clear es u. intros es. induction es as [|e es IH] using rev_ind; simpl.
    - split; [intros u; rewrite lookup_empty; split; [intros [? H]; discriminate | tauto] | tauto].
    - rewrite run_app. destruct IH as [Hdom Hpend].
      set (w := run cfg (start t0) es) in *.
      destruct e as [v|v|now|now|now req|i o]; simpl.
      + split.
        * intros u. rewrite lookup_insert, in_app_iff. simpl.
          destruct (decide (v = u)) as [->|Hne]; [split; eauto|].
          rewrite Hdom. split; [tauto|]. intros [H|[H|[]]]; [exact H|congruence].
        * intros p Hp. rewrite lookup_insert. destruct (decide (v = p_userId p)); eauto.
      + split; [intros u; rewrite Hdom, in_app_iff; simpl; split; [tauto|]; intros [H|[H|[]]]; [exact H|discriminate] | exact Hpend].
      + split; [intros u; rewrite Hdom, in_app_iff; simpl; split; [tauto|]; intros [H|[H|[]]]; [exact H|discriminate] | exact Hpend].
      + split; [intros u; rewrite Hdom, in_app_iff; simpl; split; [tauto|]; intros [H|[H|[]]]; [exact H|discriminate] | exact Hpend].
      + destruct (chatStart cfg now req (w_server w)) as [s' x] eqn:E.
        assert (Hss : userSessions s' = userSessions (w_server w)).
        { destruct (chatStart_cases _ _ _ _ _ _ E) as [[-> _] | [-> _]]; reflexivity. }
        assert (Hdom' : forall u, is_Some (userSessions s' !! u) <-> In (EvNewUser u) (es ++ [EvChatStart now req])).
        { intros u. rewrite Hss, Hdom, in_app_iff. simpl. split; [tauto|].
          intros [H|[H|[]]]; [exact H|discriminate]. }
        destruct x as [r|p]; simpl; split; try exact Hdom'; rewrite ?Hss; auto.
        intros q Hq. apply in_app_iff in Hq. destruct Hq as [Hq|[<-|[]]]; [auto|].
        destruct (chatStart_cases _ _ _ _ _ _ E)
          as [[_ [r Hr]] | [_ [[r Hr] | (u' & m & c & _ & _ & Hc & _ & Hp)]]]; try discriminate.
        injection Hp as ->. simpl. eauto.
      + assert (Hdom' : forall u, is_Some (userSessions (w_server w) !! u) <->
                          In (EvNewUser u) (es ++ [EvChatResume i o])).
        { intros u. rewrite Hdom, in_app_iff. simpl. split; [tauto|].
          intros [H|[H|[]]]; [exact H|discriminate]. }
        destruct (w_inflight w !! i) as [p|] eqn:Hi; simpl; [|split; [exact Hdom'|exact Hpend]].
        assert (Hp : is_Some (userSessions (w_server w) !! p_userId p))
          by (apply Hpend; apply list_elem_of_In; eapply list_elem_of_lookup_2; eauto).
        destruct o as [c| | |]; simpl;
          [| split; [exact Hdom'|intros q Hq; apply Hpend; eapply in_remove_at; eauto] ..].
        split.
        * intros u. rewrite lookup_insert. destruct (decide (p_userId p = u)) as [<-|]; [|apply Hdom'].
          rewrite <- Hdom'. split; eauto.
        * intros q Hq. rewrite lookup_insert. destruct (decide (p_userId p = p_userId q)); [eauto|].
          apply Hpend. eapply in_remove_at; eauto. }
  intros s. destruct (Hinv es) as [Hdom _]. fold s in Hdom.
  split; [apply Hdom|]. rewrite <- Hdom. unfold getHistory.
  destruct (userSessions s !! u) as [r|].
  - split; [discriminate | intros H; exfalso; apply H; eauto].
  - split; [intros _ [? H]; discriminate | reflexivity].
Qed.

Section Isolation.

Variable cfg : config.

Lemma getHistory_same (v : string) (s s' : server) :
  userSessions s' !! v = userSessions s !! v ->
  (forall r, userSessions s !! v = Some r -> arrays s' !! r = arrays s !! r) ->
  getHistory v s' = getHistory v s.
Proof.
  intros H1 H2. unfold getHistory, deref. rewrite H1.
  destruct (userSessions s !! v) as [r|] eqn:E; [rewrite (H2 r eq_refl)|]; reflexivity.
Qed.

Lemma sessions_iso_start (t0 : Z) : sessions_iso (start t0).
Proof.
  unfold sessions_iso; simpl.
  repeat split; intros *; rewrite ?lookup_empty; try discriminate; tauto.
Qed.

Lemma sessions_iso_step (w : world) (e : event) :
  sessions_iso w -> sessions_iso (fst (step cfg w e)).
Proof.
  intros Hiso. pose proof Hiso as (Ha & Hb & Hc & Hd & He).
  destruct e as [v|v|now|now|now req|i o]; simpl; try exact Hiso.
  - (* POST /api/user/new *)
    unfold sessions_iso; simpl. set (n := nextRef (w_server w)) in *.
    split; [|split; [|split; [|split]]].
    + intros u1 u2 r H1 H2. rewrite lookup_insert in H1, H2.
      destruct (decide (v = u1)) as [<-|N1], (decide (v = u2)) as [<-|N2]; auto.
      * injection H1 as <-. apply Hb in H2. lia.
      * injection H2 as <-. apply Hb in H1. lia.
      * exact (Ha u1 u2 r H1 H2).
    + intros u r H. rewrite lookup_insert in H.
      destruct (decide (v = u)); [injection H as <-; lia | apply Hb in H; lia].
    + intros q Hq. pose proof (Hc q Hq). lia.
    + intros q x Hq Hx H. rewrite lookup_insert in H.
      destruct (decide (v = x)).
      * injection H as H. pose proof (Hc q Hq). lia.
      * exact (Hd q x Hq Hx H).
    + exact He.
  - destruct (chatStart cfg now req (w_server w)) as [s' x] eqn:E.
    destruct (chatStart_cases _ _ _ _ _ _ E)
      as [[-> [r ->]] | [-> [[r ->] | (u & m & c & _ & _ & Hc0 & _ & ->)]]]; simpl.
    + exact Hiso.
    + exact Hiso.
    + unfold sessions_iso; simpl.
      split; [exact Ha|]. split; [exact Hb|]. split; [|split].
      * intros q Hq. apply in_app_iff in Hq. destruct Hq as [Hq|[<-|[]]]; [auto|].
        simpl. exact (Hb u c Hc0).
      * intros q x Hq Hx H. apply in_app_iff in Hq. destruct Hq as [Hq|[<-|[]]].
        -- exact (Hd q x Hq Hx H).
        -- simpl in *. apply Hx. exact (Ha x u c H Hc0).
      * intros q1 q2 H1 H2 Hcv.
        apply in_app_iff in H1, H2.
        destruct H1 as [H1|[<-|[]]], H2 as [H2|[<-|[]]]; simpl in *; auto.
        -- destruct (decide (p_userId q1 = u)) as [|N]; [auto|].
           exfalso. apply (Hd q1 u H1 (not_eq_sym N)). rewrite Hc0, Hcv. reflexivity.
        -- destruct (decide (u = p_userId q2)) as [|N]; [auto|].
           exfalso. apply (Hd q2 u H2 N). rewrite Hc0, Hcv. reflexivity.
  - destruct (w_inflight w !! i) as [p|] eqn:Hi; simpl; [|exact Hiso].
    assert (Hp : In p (w_inflight w))
      by (apply list_elem_of_In; eapply list_elem_of_lookup_2; eauto).
    assert (Hsub : forall q, In q (remove_at i (w_inflight w)) -> In q (w_inflight w))
      by (intros q; apply in_remove_at).
    destruct o as [a| | |]; simpl;
      [| unfold sessions_iso; simpl; split; [exact Ha|]; split; [exact Hb|];
         split; [intros q Hq; exact (Hc q (Hsub q Hq))|];
         split; [intros q x Hq; exact (Hd q x (Hsub q Hq))|];
         intros q1 q2 H1 H2; exact (He q1 q2 (Hsub q1 H1) (Hsub q2 H2)) ..].
    unfold sessions_iso; simpl. split; [|split; [|split; [|split]]].
    + intros u1 u2 r H1 H2. rewrite lookup_insert in H1, H2.
      destruct (decide (p_userId p = u1)) as [<-|N1], (decide (p_userId p = u2)) as [<-|N2]; auto.
      * injection H1 as <-. exfalso. exact (Hd p u2 Hp (not_eq_sym N2) H2).
      * injection H2 as <-. exfalso. exact (Hd p u1 Hp (not_eq_sym N1) H1).
      * exact (Ha u1 u2 r H1 H2).
    + intros u r H. rewrite lookup_insert in H.
      destruct (decide (p_userId p = u)); [injection H as <-; exact (Hc p Hp) | exact (Hb u r H)].
    + intros q Hq. exact (Hc q (Hsub q Hq)).
    + intros q x Hq Hx H. rewrite lookup_insert in H.
      destruct (decide (p_userId p = x)) as [<-|N].
      * injection H as H. apply Hx. exact (He p q Hp (Hsub q Hq) H).
      * exact (Hd q x (Hsub q Hq) Hx H).
    + intros q1 q2 H1 H2. exact (He q1 q2 (Hsub q1 H1) (Hsub q2 H2)).
Qed.

Lemma sessions_iso_run (t0 : Z) (es : list event) : sessions_iso (run cfg (start t0) es).
Proof.
  apply (run_invariant cfg sessions_iso); [apply sessions_iso_step | apply sessions_iso_start].
Qed.

End Isolation.

(** X3: sessions are isolated: after any interleaving of requests, the
    next event leaves the history of a session [v] unchanged unless it
    is [POST /api/user/new] for [v] or the resumption of a chat request
    of [v]. *)
Theorem other_sessions_untouched (cfg : config) (t0 : Z) (es : list event) (e : event)
    (v : string) :
  let w := run cfg (start t0) es in
  getHistory v (w_server (fst (step cfg w e))) = getHistory v (w_server w) \/
  e = EvNewUser v \/
  exists i o p, e = EvChatResume i o /\ w_inflight w !! i = Some p /\ p_userId p = v.
Proof.
  intros w. pose proof (sessions_iso_run cfg t0 es) as (Ha & Hb & Hc & Hd & He). fold w in Ha, Hb, Hc, Hd, He.
  destruct e as [u|u|now|now|now req|i o]; simpl.
  - destruct (decide (u = v)) as [->|N]; [right; left; reflexivity|left].
    apply getHistory_same; simpl.
    + rewrite lookup_insert_ne by exact N. reflexivity.
    + intros r Hr. apply Hb in Hr. rewrite lookup_insert_ne by lia. reflexivity.
  - left. reflexivity.
  - left. apply getHistory_same; reflexivity.
  - left. reflexivity.
  - left. destruct (chatStart cfg now req (w_server w)) as [s' x] eqn:E.
    destruct (chatStart_cases _ _ _ _ _ _ E) as [[-> _] | [-> _]];
      destruct x; simpl; apply getHistory_same; reflexivity.
  - destruct (w_inflight w !! i) as [p|] eqn:Hi; simpl; [|left; reflexivity].
    destruct (decide (p_userId p = v)) as [<-|N]; [right; right; exists i, o, p; auto|left].
    assert (Hp : In p (w_inflight w))
      by (apply list_elem_of_In; eapply list_elem_of_lookup_2; eauto).
    destruct o as [a| | |]; simpl; try reflexivity.
    apply getHistory_same; simpl.
    + rewrite lookup_insert_ne by exact N. reflexivity.
    + intros r Hr. rewrite lookup_insert_ne; [reflexivity|].
      intros Heq. rewrite <- Heq in Hr. exact (Hd p v Hp (not_eq_sym N) Hr).
Qed.

Section Counter.

Variable cfg : config.

Lemma resetWeekly_weekStart_le (now : Z) (pc : promptCounter) :
  (weekStart pc <= weekStart (resetWeekly now pc))%Z.
Proof.
  unfold resetWeekly. rewrite weeksSince_test.
  destruct (Z.leb_spec WEEK_MS (now - weekStart pc)) as [H|H]; simpl; [|lia].
  assert (WEEK_MS = 604800000%Z) as E by reflexivity. lia.
Qed.

Lemma count_nonneg_step (w : world) (e : event) :
  (0 <= count (promptCounter_ (w_server w)))%Z ->
  (0 <= count (promptCounter_ (w_server (fst (step cfg w e)))))%Z.
Proof.
  intros H. destruct e as [u|u|now|now|now req|i o]; simpl; auto.
  - destruct (reset_cases now (promptCounter_ (w_server w))) as [-> | ->]; lia.
  - destruct (chatStart cfg now req (w_server w)) as [s' x] eqn:E.
    destruct (chatStart_cases _ _ _ _ _ _ E) as [[-> _] | [-> _]];
      destruct x; simpl; auto;
      destruct (reset_cases now (promptCounter_ (w_server w))) as [-> | ->]; lia.
  - destruct (w_inflight w !! i) as [p|]; simpl; auto.
    destruct o; simpl; lia.
Qed.

End Counter.

(** X4: after any interleaving of requests the count is non-negative, so
    [GET /api/stats] reports a [remaining] between 0 and [max(0, MAX)]. *)
Theorem stats_remaining_bounds (cfg : config) (t0 : Z) (es : list event) (now : Z) :
  let s := w_server (run cfg (start t0) es) in
  (0 <= count (promptCounter_ s))%Z /\
  exists n, jfield "remaining" (body (snd (stats cfg now s))) = Some (JNum n) /\
            (0 <= n <= Z.max 0 (MAX_PROMPTS_PER_WEEK cfg))%Z.
Proof.
  intros s.
  assert (H : (0 <= count (promptCounter_ s))%Z).
  { apply (run_invariant cfg (fun w => (0 <= count (promptCounter_ (w_server w)))%Z));
      [apply count_nonneg_step | simpl; lia]. }
  split; [exact H|].
  eexists. split; [reflexivity|].
  destruct (reset_cases now (promptCounter_ s)) as [-> | ->]; lia.
Qed.

(** X5: no event moves the window start backwards. *)
Theorem weekStart_monotone (cfg : config) (w : world) (e : event) :
  (weekStart (promptCounter_ (w_server w))
     <= weekStart (promptCounter_ (w_server (fst (step cfg w e)))))%Z.
Proof.
  destruct e as [u|u|now|now|now req|i o]; simpl; try lia.
  - apply resetWeekly_weekStart_le.
  - destruct (chatStart cfg now req (w_server w)) as [s' x] eqn:E.
    destruct (chatStart_cases _ _ _ _ _ _ E) as [[-> _] | [-> _]];
      destruct x; simpl; try lia; apply resetWeekly_weekStart_le.
  - destruct (w_inflight w !! i) as [p|]; simpl; [|lia].
    destruct o; simpl; lia.
Qed.

(** X6: when chat requests never overlap (at most one awaits its
    inference call at any time), the count never exceeds the maximum. *)
Theorem sequential_quota_respected (cfg : config) (t0 : Z) (es : list event) :
  (1 <= MAX_PROMPTS_PER_WEEK cfg)%Z ->
  (w_peak (run cfg (start t0) es) <= 1)%nat ->
  (count (promptCounter_ (w_server (run cfg (start t0) es))) <= MAX_PROMPTS_PER_WEEK cfg)%Z.
Proof.
  intros Hmax Hpeak.
  assert (H : quota_inv cfg (run cfg (start t0) es)).
  { apply (run_invariant cfg (quota_inv cfg)); [apply quota_inv_step|].
    split; simpl; [lia|]. pose proof (Z.le_max_l 0 (MAX_PROMPTS_PER_WEEK cfg - 1)). lia. }
  destruct H as [_ H]. rewrite Z.max_r in H by lia. lia.
Qed.

Lemma sequential_quota_respected_witness :
  (1 <= MAX_PROMPTS_PER_WEEK demo_cfg)%Z /\
  (w_peak (run demo_cfg (start 0)
             [EvNewUser "u1"; EvChatStart 0 demo_req; EvChatResume 0 (UpOk "a");
              EvChatStart 5 demo_req; EvChatResume 0 (UpNoResponse "timeout")]) <= 1)%nat /\
  (count (promptCounter_ (w_server (run demo_cfg (start 0)
             [EvNewUser "u1"; EvChatStart 0 demo_req; EvChatResume 0 (UpOk "a");
              EvChatStart 5 demo_req; EvChatResume 0 (UpNoResponse "timeout")])))
     <= MAX_PROMPTS_PER_WEEK demo_cfg)%Z.
Proof.
  assert (H1 : (1 <= MAX_PROMPTS_PER_WEEK demo_cfg)%Z) by (vm_compute; discriminate).
  assert (H2 : (w_peak (run demo_cfg (start 0)
             [EvNewUser "u1"; EvChatStart 0 demo_req; EvChatResume 0 (UpOk "a");
              EvChatStart 5 demo_req; EvChatResume 0 (UpNoResponse "timeout")]) <= 1)%nat)
    by (vm_compute; lia).
  split; [exact H1|]. split; [exact H2|].
  exact (sequential_quota_respected demo_cfg 0 _ H1 H2).
Defined.

(** X7: a request run on its own (no other request between its quota
    check and its reply) that gets a reply is answered 200 with
    that reply and [promptsRemaining = MAX - count - 1], where [count] is
    the value after the lazy reset; this number is never clamped: it is
    already non-negative. *)
Theorem chat_success_remaining (cfg : config) (now : Z) (openai : inference)
    (req : chatRequest) (s s1 : server) (p : pending) (a : string) :
  chatStart cfg now req s = (s1, inr p) ->
  openai (OPENAI_API_KEY cfg) (p_messages p) = UpOk a ->
  let n := (MAX_PROMPTS_PER_WEEK cfg - count (resetWeekly now (promptCounter_ s)) - 1)%Z in
  snd (chat cfg now openai req s) =
    mkResponse 200 (JObj [("response", JStr a); ("promptsRemaining", JNum n)]) /\
  (0 <= n)%Z.
Proof.
  intros H Ho n.
  destruct (chatStart_cases _ _ _ _ _ _ H)
    as [[_ [r Hr]] | [Hs1 [[r Hr] | (u & m & c & _ & _ & _ & Hlt & _)]]]; try discriminate.
  split; [|unfold n; lia].
  unfold chat. rewrite H, Ho. simpl. rewrite Hs1. simpl.
  unfold n.
  assert (E : Z.max 0 (MAX_PROMPTS_PER_WEEK cfg - (count (resetWeekly now (promptCounter_ s)) + 1))
              = (MAX_PROMPTS_PER_WEEK cfg - count (resetWeekly now (promptCounter_ s)) - 1)%Z) by lia.
  rewrite E. reflexivity.
Qed.

Lemma chat_success_remaining_witness :
  snd (chat demo_cfg 0 (fun _ _ => UpOk "Salut") demo_req demo_server) =
    mkResponse 200 (JObj [("response", JStr "Salut"); ("promptsRemaining", JNum 3999)]) /\
  (0 <= 3999)%Z.
Proof.
  exact (chat_success_remaining demo_cfg 0 (fun _ _ => UpOk "Salut") demo_req demo_server
           demo_s1 demo_pending "Salut" eq_refl eq_refl).
Defined.

(** X8: a chat request with a missing or empty [userId] or [message] is
    answered 400, and one naming an unknown session 404, with the server
    state left exactly as it was (not even the weekly reset runs) and no
    inference call. *)
Theorem chat_rejected_state_untouched (cfg : config) (now : Z) (openai : inference)
    (req : chatRequest) (s : server) :
  ((truthy (req_userId req) = None \/ truthy (req_message req) = None) ->
     chatStart cfg now req s = (s, inl badRequest) /\ chat cfg now openai req s = (s, badRequest)) /\
  (forall userId msg, truthy (req_userId req) = Some userId -> truthy (req_message req) = Some msg ->
     userSessions s !! userId = None ->
     chatStart cfg now req s = (s, inl sessionNotFound) /\
     chat cfg now openai req s = (s, sessionNotFound)).
Proof.
  split.
  - intros Hm. assert (Hs : chatStart cfg now req s = (s, inl badRequest)).
    { unfold chatStart. destruct Hm as [-> | ->];
        [reflexivity | destruct (truthy (req_userId req)); reflexivity]. }
    split; [exact Hs|]. unfold chat. rewrite Hs. reflexivity.
  - intros u m Hu Hm Hn.
    assert (Hs : chatStart cfg now req s = (s, inl sessionNotFound)).
    { unfold chatStart. rewrite Hu, Hm, Hn. reflexivity. }
    split; [exact Hs|]. unfold chat. rewrite Hs. reflexivity.
Qed.

Section ClientFacts.

Lemma truthy_Some_inv (o : option string) (v : string) :
  truthy o = Some v -> o = Some v /\ v <> "".
Proof.
  unfold truthy. destruct o as [x|]; [|discriminate].
  destruct (String.eqb_spec x ""); [discriminate|]. intros H; injection H as <-. auto.
Qed.

Lemma truthy_nonempty (v : string) : v <> "" -> truthy (Some v) = Some v.
Proof. intros H. unfold truthy. destruct (String.eqb_spec v ""); [contradiction|reflexivity]. Qed.

Lemma chatStart_inl (cfg : config) (now : Z) (req : chatRequest) (s s' : server) (r : response) :
  chatStart cfg now req s = (s', inl r) ->
  r = badRequest \/ r = sessionNotFound \/ r = weeklyLimitExceeded (MAX_PROMPTS_PER_WEEK cfg).
Proof.
  unfold chatStart.
  destruct (truthy (req_userId req)), (truthy (req_message req));
    try (intros H; injection H as _ <-; auto; fail).
  destruct (userSessions s !! _); [|intros H; injection H as _ <-; auto].
  cbv zeta. destruct (Z.leb _ _); intros H; injection H as _ H; [subst; auto | discriminate].
Qed.

Lemma chatError_cases (o : upstream) :
  chatError o = mkResponse 500 (JObj [("error", JStr "Clé API OpenAI invalide")]) \/
  chatError o = mkResponse 429 (JObj [("error", JStr "Limite de l'API OpenAI atteinte, réessayez plus tard")]) \/
  chatError o = mkResponse 500 (JObj [("error", JStr "Erreur interne du serveur")]).
Proof.
  unfold chatError.
  repeat match goal with |- context [match ?x with _ => _ end] => destruct x end; auto.
Qed.

Lemma chat_response_cases (cfg : config) (now : Z) (openai : inference) (req : chatRequest) (s : server) :
  response_ok (snd (chat cfg now openai req s)) = true \/
  snd (chat cfg now openai req s) = badRequest \/
  snd (chat cfg now openai req s) = sessionNotFound \/
  snd (chat cfg now openai req s) = weeklyLimitExceeded (MAX_PROMPTS_PER_WEEK cfg) \/
  exists o, snd (chat cfg now openai req s) = chatError o.
Proof.
  unfold chat. destruct (chatStart cfg now req s) as [s1 [r0|p]] eqn:Hst.
  - apply chatStart_inl in Hst as [ -> | [ -> | -> ]]; simpl; auto.
  - unfold chatFinish. destruct (openai _ _) as [a | | st d | ];
      [left; reflexivity | right; right; right; right; eexists; reflexivity ..].
Qed.

End ClientFacts.

(** X9: [sendMessage] sends a request exactly when the trimmed input is
    non-empty, a user id is known and no request is loading: when the
    guard fails nothing is sent and the client state is left as it was;
    when it holds a request is sent, carrying that user id and the
    trimmed input, with the user message appended, the input cleared,
    loading set and the error reset. *)
Theorem sendStart_guard (trim : string -> string) (c : client) :
  (trim (c_inputMessage c) = "" \/ truthy (c_userId c) = None \/ c_isLoading c = true ->
     sendStart trim c = (c, None)) /\
  (forall c1 req, sendStart trim c = (c1, Some req) ->
     trim (c_inputMessage c) <> "" /\ c_isLoading c = false /\
     exists uid, truthy (c_userId c) = Some uid /\
       req = mkChatRequest (Some uid) (Some (trim (c_inputMessage c))) /\
       c1 = mkClient (c_messages c ++ [("user", Some (JStr (trim (c_inputMessage c))))])
              "" true (c_userId c) None) /\
  (forall uid, trim (c_inputMessage c) <> "" -> truthy (c_userId c) = Some uid ->
     c_isLoading c = false ->
     sendStart trim c =
       (mkClient (c_messages c ++ [("user", Some (JStr (trim (c_inputMessage c))))])
          "" true (c_userId c) None,
        Some (mkChatRequest (Some uid) (Some (trim (c_inputMessage c)))))).
Proof.
  split; [|split].
  - intros H. unfold sendStart.
    destruct H as [H|[H|H]].
    + rewrite H. reflexivity.
    + rewrite H. destruct (truthy (Some (trim (c_inputMessage c)))); reflexivity.
    + rewrite H. destruct (truthy (Some (trim (c_inputMessage c)))), (truthy (c_userId c)); reflexivity.
  - intros c1 req. unfold sendStart.
    destruct (truthy (Some (trim (c_inputMessage c)))) as [t|] eqn:Ht; [|discriminate].
    destruct (truthy (c_userId c)) as [uid|] eqn:Hu; [|discriminate].
    destruct (c_isLoading c) eqn:Hl; [discriminate|].
    intros H. injection H as <- <-.
    apply truthy_Some_inv in Ht as [Ht Hne]. injection Ht as <-.
    split; [exact Hne|]. split; [reflexivity|]. exists uid. auto.
  - intros uid Ht Hu Hl. unfold sendStart.
    rewrite (truthy_nonempty _ Ht), Hu, Hl. reflexivity.
Qed.

(** X10: when the server accepts the message and the inference call
    replies [a], the client ends with the trimmed message and [a]
    appended to what it showed, no error and nothing loading, while the
    server's history of that user ends with the same two entries (after
    the trim to 20). *)
Theorem sendRoundTrip_success (trim : string -> string) (cfg : config) (now : Z)
    (openai : inference) (c : client) (s : server) (uid : string) (r : nat) (a : string) :
  truthy (c_userId c) = Some uid ->
  c_isLoading c = false ->
  trim (c_inputMessage c) <> "" ->
  userSessions s !! uid = Some r ->
  (count (resetWeekly now (promptCounter_ s)) < MAX_PROMPTS_PER_WEEK cfg)%Z ->
  openai (OPENAI_API_KEY cfg)
    (mkMessage "system" SYSTEM_PROMPT
       :: deref s r ++ [mkMessage "user" (trim (c_inputMessage c))]) = UpOk a ->
  let t := trim (c_inputMessage c) in
  c_messages (fst (sendRoundTrip trim cfg now openai c s)) =
    c_messages c ++ [("user", Some (JStr t)); ("assistant", Some (JStr a))] /\
  c_isLoading (fst (sendRoundTrip trim cfg now openai c s)) = false /\
  c_error (fst (sendRoundTrip trim cfg now openai c s)) = None /\
  userSessions (snd (sendRoundTrip trim cfg now openai c s)) !! uid = Some r /\
  deref (snd (sendRoundTrip trim cfg now openai c s)) r =
    trimHistory (deref s r ++ [mkMessage "user" t; mkMessage "assistant" a]).
Proof.
  intros Hu Hl Ht Hr Hlt Ho t.
  destruct (truthy_Some_inv _ _ Hu) as [_ Huid].
  assert (Hchat : chat cfg now openai (mkChatRequest (Some uid) (Some t)) s =
            chatFinish cfg (mkPending uid t r
                              (mkMessage "system" SYSTEM_PROMPT :: deref s r ++ [mkMessage "user" t]))
              (UpOk a) (setCounter s (resetWeekly now (promptCounter_ s)))).
  { unfold chat, chatStart. cbn [req_userId req_message].
    rewrite (truthy_nonempty uid Huid), (truthy_nonempty t Ht), Hr.
    cbv zeta. cbn [promptCounter_ setCounter].
    destruct (Z.leb_spec (MAX_PROMPTS_PER_WEEK cfg) (count (resetWeekly now (promptCounter_ s))));
      [lia|]. cbn [p_messages]. fold t in Ho. rewrite <- Ho. reflexivity. }
  unfold sendRoundTrip, sendStart. fold t.
  rewrite (truthy_nonempty t Ht), Hu, Hl. simpl snd. rewrite Hchat.
  simpl. rewrite !lookup_insert_eq. simpl.
  repeat split; [rewrite <- app_assoc; reflexivity|reflexivity..|].
  unfold deref. simpl. rewrite lookup_insert_eq. reflexivity.
Qed.

Lemma sendRoundTrip_success_witness :
  let c := mkClient [] "Bonjour" false (Some "u1") None in
  let t := (fun v : string => v) (c_inputMessage c) in
  c_messages (fst (sendRoundTrip (fun v => v) demo_cfg 0 (fun _ _ => UpOk "Salut") c demo_server)) =
    c_messages c ++ [("user", Some (JStr t)); ("assistant", Some (JStr "Salut"))] /\
  c_isLoading (fst (sendRoundTrip (fun v => v) demo_cfg 0 (fun _ _ => UpOk "Salut") c demo_server)) = false /\
  c_error (fst (sendRoundTrip (fun v => v) demo_cfg 0 (fun _ _ => UpOk "Salut") c demo_server)) = None /\
  userSessions (snd (sendRoundTrip (fun v => v) demo_cfg 0 (fun _ _ => UpOk "Salut") c demo_server))
    !! "u1" = Some 0%nat /\
  deref (snd (sendRoundTrip (fun v => v) demo_cfg 0 (fun _ _ => UpOk "Salut") c demo_server)) 0 =
    trimHistory (deref demo_server 0 ++ [mkMessage "user" t; mkMessage "assistant" "Salut"]).
Proof.
  apply (sendRoundTrip_success (fun v => v) demo_cfg 0 (fun _ _ => UpOk "Salut")
           (mkClient [] "Bonjour" false (Some "u1") None) demo_server "u1" 0 "Salut");
    [reflexivity | reflexivity | discriminate | reflexivity | vm_compute; reflexivity | reflexivity].
Defined.

(** X11: whenever the server answers a sent message with an error status,
    the client ends with that response's non-empty [error] string as its
    error, stops loading, and keeps the optimistic user message it had
    appended (its list is the one [sendStart] produced). *)
Theorem client_shows_server_error (trim : string -> string) (cfg : config) (now : Z)
    (openai : inference) (c c1 : client) (req : chatRequest) (s : server) :
  sendStart trim c = (c1, Some req) ->
  response_ok (snd (chat cfg now openai req s)) = false ->
  exists e, jfield "error" (body (snd (chat cfg now openai req s))) = Some (JStr e) /\
    e <> "" /\
    fst (sendRoundTrip trim cfg now openai c s) =
      mkClient (c_messages c1) (c_inputMessage c1) false (c_userId c1) (Some (JStr e)).
Proof.
  intros Hs Hok. unfold sendRoundTrip. rewrite Hs.
  destruct (chat cfg now openai req s) as [s' r] eqn:Hc. simpl in Hok |- *.
  pose proof (chat_response_cases cfg now openai req s) as Hr. rewrite Hc in Hr. simpl in Hr.
  destruct Hr as [Hr | [ -> | [ -> | [ -> | [o ->]]]]].
  - congruence.
  - eexists. split; [reflexivity|]. split; [discriminate|reflexivity].
  - eexists. split; [reflexivity|]. split; [discriminate|reflexivity].
  - eexists. split; [reflexivity|]. split; [cbn; discriminate|reflexivity].
  - destruct (chatError_cases o) as [ -> | [ -> | -> ]];
      (eexists; split; [reflexivity|]; split; [discriminate|reflexivity]).
Qed.

Lemma client_shows_server_error_witness :
  let c := mkClient [] "Bonjour" false (Some "u1") None in
  let c1 := mkClient [("user", Some (JStr "Bonjour"))] "" true (Some "u1") None in
  let req := mkChatRequest (Some "u1") (Some "Bonjour") in
  let openai := fun (_ : string) (_ : list message) => UpHttpError 401 "" in
  sendStart (fun v => v) c = (c1, Some req) /\
  response_ok (snd (chat demo_cfg 0 openai req demo_server)) = false /\
  exists e, jfield "error" (body (snd (chat demo_cfg 0 openai req demo_server))) = Some (JStr e) /\
    e <> "" /\
    fst (sendRoundTrip (fun v => v) demo_cfg 0 openai c demo_server) =
      mkClient (c_messages c1) (c_inputMessage c1) false (c_userId c1) (Some (JStr e)).
Proof.
  cbv zeta.
  assert (H1 : sendStart (fun v => v) (mkClient [] "Bonjour" false (Some "u1") None) =
            (mkClient [("user", Some (JStr "Bonjour"))] "" true (Some "u1") None,
             Some (mkChatRequest (Some "u1") (Some "Bonjour")))) by reflexivity.
  assert (H2 : response_ok (snd (chat demo_cfg 0 (fun _ _ => UpHttpError 401 "")
                 (mkChatRequest (Some "u1") (Some "Bonjour")) demo_server)) = false)
    by (vm_compute; reflexivity).
  split; [exact H1|]. split; [exact H2|].
  exact (client_shows_server_error (fun v => v) demo_cfg 0 (fun _ _ => UpHttpError 401 "")
           _ _ _ demo_server H1 H2).
Defined.

(** X12: when the weekly quota is spent, the client still shows the
    message it sent, next to the quota error, while the server stored
    nothing: its sessions and arrays are those it had before. *)
Theorem client_keeps_rejected_message (trim : string -> string) (cfg : config) (now : Z)
    (openai : inference) (c : client) (s : server) (uid : string) (r : nat) :
  truthy (c_userId c) = Some uid ->
  c_isLoading c = false ->
  trim (c_inputMessage c) <> "" ->
  userSessions s !! uid = Some r ->
  (MAX_PROMPTS_PER_WEEK cfg <= count (resetWeekly now (promptCounter_ s)))%Z ->
  c_messages (fst (sendRoundTrip trim cfg now openai c s)) =
    c_messages c ++ [("user", Some (JStr (trim (c_inputMessage c))))] /\
  c_error (fst (sendRoundTrip trim cfg now openai c s)) =
    jfield "error" (body (weeklyLimitExceeded (MAX_PROMPTS_PER_WEEK cfg))) /\
  c_isLoading (fst (sendRoundTrip trim cfg now openai c s)) = false /\
  userSessions (snd (sendRoundTrip trim cfg now openai c s)) = userSessions s /\
  arrays (snd (sendRoundTrip trim cfg now openai c s)) = arrays s.
Proof.
  intros Hu Hl Ht Hr Hge.
  destruct (truthy_Some_inv _ _ Hu) as [_ Huid].
  unfold sendRoundTrip, sendStart.
  rewrite (truthy_nonempty _ Ht), Hu, Hl.
  unfold chat, chatStart. cbn [req_userId req_message snd].
  rewrite (truthy_nonempty uid Huid), (truthy_nonempty _ Ht), Hr.
  cbv zeta. cbn [promptCounter_ setCounter].
  destruct (Z.leb_spec (MAX_PROMPTS_PER_WEEK cfg) (count (resetWeekly now (promptCounter_ s))));
    [|lia].
  repeat split; reflexivity.
Qed.

Lemma client_keeps_rejected_message_witness :
  let c := mkClient [] "Bonjour" false (Some "u1") None in
  let cfg := mkConfig "sk-demo" 0 in
  let openai := fun (_ : string) (_ : list message) => UpOk "Salut" in
  c_messages (fst (sendRoundTrip (fun v => v) cfg 0 openai c demo_server)) =
    c_messages c ++ [("user", Some (JStr "Bonjour"))] /\
  c_error (fst (sendRoundTrip (fun v => v) cfg 0 openai c demo_server)) =
    jfield "error" (body (weeklyLimitExceeded 0)) /\
  c_isLoading (fst (sendRoundTrip (fun v => v) cfg 0 openai c demo_server)) = false /\
  userSessions (snd (sendRoundTrip (fun v => v) cfg 0 openai c demo_server)) = userSessions demo_server /\
  arrays (snd (sendRoundTrip (fun v => v) cfg 0 openai c demo_server)) = arrays demo_server.
Proof.
  apply (client_keeps_rejected_message (fun v => v) (mkConfig "sk-demo" 0) 0
           (fun _ _ => UpOk "Salut") (mkClient [] "Bonjour" false (Some "u1") None)
           demo_server "u1" 0);
    [reflexivity | reflexivity | discriminate | reflexivity | vm_compute; discriminate].
Defined.

End Server.
